(** * chat_engine.py: the chat orchestrator, embedded and verified

    The development follows [src/chat_engine.py].  The class [ChatEngine]
    is a thin pipeline over three collaborators (the vector-search data
    manager, the prompt template and the LLM chain); its two methods
    mutate the conversation history, print to the console and may raise.
    Python code is embedded in a state-and-exception monad; the
    collaborators, which live outside the repository's source, are the
    members of a class of oracles over an opaque external state. *)

From Stdlib Require Import ZArith Ascii String.
From stdpp Require Import base strings list gmap pretty.

Local Open Scope Z_scope.
Local Open Scope string_scope.
Local Open Scope list_scope.

(** ** Python values and exceptions *)

#[local] Set Warnings "-register-all".

(** The values a retriever can hand back: JSON-like Python data.  A dict is
    kept as an association list, since iterating a dict yields its keys in
    insertion order. *)
Inductive pyval : Type :=
| PyNone
| PyBool (b : bool)
| PyInt (z : Z)
| PyStr (s : string)
| PyList (items : list pyval)
| PyDict (items : list (string * pyval)).

(** Raised objects.  [SystemExit], [KeyboardInterrupt] and [GeneratorExit]
    derive from [BaseException] only; every other class derives from
    [Exception]. *)
Inductive exn : Type :=
| SystemExit (code : Z)
| KeyboardInterrupt
| GeneratorExit
| KeyError (key : string)
| TypeError (msg : string)
| PyException (cls : string) (msg : string).

(** [isinstance(e, Exception)]: what [except Exception] selects. *)
Definition isinstance_Exception (e : exn) : bool :=
  match e with
  | SystemExit _ | KeyboardInterrupt | GeneratorExit => false
  | KeyError _ | TypeError _ | PyException _ _ => true
  end.

(** [isinstance(e, KeyError)]: what [except KeyError] selects. *)
Definition isinstance_KeyError (e : exn) : bool :=
  match e with
  | KeyError _ => true
  | _ => false
  end.

(** [repr(s)] of a string: between single quotes, or between double
    quotes when the text holds a single quote and no double one; the
    backslash, the chosen quote and the control characters are escaped.
    Bytes above 127 pass as they are (the text of a printable character
    in UTF-8). *)
Definition dquote : ascii := ascii_of_nat 34.

Definition squote : ascii := ascii_of_nat 39.

Definition backslash : ascii := ascii_of_nat 92.

Fixpoint holds (c : ascii) (s : string) : bool :=
  match s with
  | EmptyString => false
  | String c' s' => Ascii.eqb c c' || holds c s'
  end.

Definition hex_digit (n : nat) : ascii :=
  ascii_of_nat (if Nat.ltb n 10 then 48 + n else 87 + n).

Definition repr_char (quote c : ascii) : string :=
  let n := nat_of_ascii c in
  if Ascii.eqb c backslash then String backslash (String backslash EmptyString)
  else if Ascii.eqb c quote then String backslash (String quote EmptyString)
  else if Nat.eqb n 9 then String backslash "t"
  else if Nat.eqb n 10 then String backslash "n"
  else if Nat.eqb n 13 then String backslash "r"
  else if Nat.ltb n 32 || Nat.eqb n 127 then
    String backslash
      (String "x" (String (hex_digit (n / 16))
                     (String (hex_digit (n mod 16)) EmptyString)))
  else String c EmptyString.

Fixpoint repr_body (quote : ascii) (s : string) : string :=
  match s with
  | EmptyString => EmptyString
  | String c s' => repr_char quote c +:+ repr_body quote s'
  end.

Definition repr_str (s : string) : string :=
  let quote := if holds squote s && negb (holds dquote s) then dquote else squote in
  String quote (repr_body quote s +:+ String quote EmptyString).

(** [str(e)], as interpolated by the f-string of the error log; the text
    of a [KeyError] is the [repr] of its key. *)
Definition str_exn (e : exn) : string :=
  match e with
  | SystemExit code => pretty code
  | KeyboardInterrupt | GeneratorExit => ""
  | KeyError key => repr_str key
  | TypeError msg => msg
  | PyException _ msg => msg
  end.

(** ** Outcomes and the monad of methods *)

Inductive outcome (A : Type) : Type :=
| Ret (a : A)
| Raise (e : exn).
Arguments Ret {A} a.
Arguments Raise {A} e.

(** A computation over a mutable state [S]: the state survives a raise,
    as mutations made before a Python exception do. *)
Definition M (S A : Type) : Type := S -> outcome A * S.

Definition ret {S A} (a : A) : M S A := fun s => (Ret a, s).

Definition raise {S A} (e : exn) : M S A := fun s => (Raise e, s).

Definition bind {S A B} (c : M S A) (k : A -> M S B) : M S B :=
  fun s =>
    match c s with
    | (Ret a, s') => k a s'
    | (Raise e, s') => (Raise e, s')
    end.

Definition lift {S A} (o : outcome A) : M S A := fun s => (o, s).

(** [try: body except <class> as e: handler e].  An exception that the
    clause does not select passes through. *)
Definition try_except {S A} (body : M S A) (selects : exn -> bool)
    (handler : exn -> M S A) : M S A :=
  fun s =>
    match body s with
    | (Ret a, s') => (Ret a, s')
    | (Raise e, s') => if selects e then handler e s' else (Raise e, s')
    end.

Notation "'do' x <- c ; k" := (bind c (fun x => k))
  (at level 10, x name, c at level 100, k at level 200).
Notation "'exec' c ; k" := (bind c (fun _ => k))
  (at level 10, c at level 100, k at level 200).

(** The body of a list comprehension [[f x for x in xs]]: left to right,
    stopping at the first raise. *)
Fixpoint comprehension {S A B} (f : A -> M S B) (xs : list A) : M S (list B) :=
  match xs with
  | [] => ret []
  | x :: xs' =>
      do y <- f x;
      do ys <- comprehension f xs';
      ret (y :: ys)
  end.

(** ** Iteration and subscription on Python values *)

Definition type_name (v : pyval) : string :=
  match v with
  | PyNone => "NoneType"
  | PyBool _ => "bool"
  | PyInt _ => "int"
  | PyStr _ => "str"
  | PyList _ => "list"
  | PyDict _ => "dict"
  end.

Fixpoint chars (s : string) : list pyval :=
  match s with
  | EmptyString => []
  | String c s' => PyStr (String c EmptyString) :: chars s'
  end.

(** [iter(v)] run to the end.  The message texts of [TypeError] are
    CPython's; no statement below depends on them. *)
Definition py_iter (v : pyval) : outcome (list pyval) :=
  match v with
  | PyList items => Ret items
  | PyDict items => Ret (map (fun kv => PyStr (fst kv)) items)
  | PyStr s => Ret (chars s)
  | PyNone | PyBool _ | PyInt _ =>
      Raise (TypeError ("'" +:+ type_name v +:+ "' object is not iterable"))
  end.

Fixpoint dict_get (items : list (string * pyval)) (key : string) : option pyval :=
  match items with
  | [] => None
  | (k, v) :: items' => if String.eqb k key then Some v else dict_get items' key
  end.

(** [v[key]] for a string key. *)
Definition py_getitem (v : pyval) (key : string) : outcome pyval :=
  match v with
  | PyDict items =>
      match dict_get items key with
      | Some x => Ret x
      | None => Raise (KeyError key)
      end
  | PyStr _ => Raise (TypeError "string indices must be integers, not 'str'")
  | PyList _ => Raise (TypeError "list indices must be integers or slices, not str")
  | PyNone | PyBool _ | PyInt _ =>
      Raise (TypeError ("'" +:+ type_name v +:+ "' object is not subscriptable"))
  end.

(** [os.environ[key]] *)
Definition environ_getitem (environ : gmap string string) (key : string)
    : outcome string :=
  match environ !! key with
  | Some v => Ret v
  | None => Raise (KeyError key)
  end.

(** ** Data model *)

(** Modelled from the spec: the class [ChatHistory] (chat_history.py) is
    not part of the source at hand.  Section 3 gives a Turn as a role and a
    text, and section 4.1 gives [add_message(role, text)] as appending one
    Turn to an ordered, append-only log, with no validation.  The roles are
    the strings the engine passes, ["user"] and ["bot"]. *)
Record Turn : Type := { role : string; text : string }.

Definition ChatHistory : Type := list Turn.

Definition ChatHistory_new : ChatHistory := [].

Definition add_message (role text : string) (h : ChatHistory) : ChatHistory :=
  h ++ [{| role := role; text := text |}].

(** The langchain objects the constructor builds are plain configuration
    holders. *)
Record PromptTemplate : Type :=
  { input_variables : list string; template : string }.

Record ChatOpenAI : Type := { temperature : Z; model : string }.

Record LLMChain : Type := { llm : ChatOpenAI; prompt : PromptTemplate }.

(** Calls that leave the process. *)
Inductive event : Type :=
| EvNewDataManager
| EvFind (query : string)
| EvRun (chain : LLMChain) (message : string) (best_practice : list pyval).

Definition is_run (ev : event) : bool :=
  match ev with
  | EvRun _ _ _ => true
  | _ => false
  end.

Definition count_runs (evs : list event) : nat := length (filter is_run evs).

(** ** Collaborators *)

(** What the engine reaches only through a contract: the data manager
    ([qa_data_manager.py], a vector search behind it), the LLM chain, the
    template text ([templates/system_prompt.py]) and the constructors of
    the langchain objects.  Each call may raise and may change the
    external state; a [DataManager] is a handle, and whatever the object
    behind it keeps (connections, caches, the index) is part of that
    external state.  A langchain constructor checks what it is given,
    [ChatOpenAI] against the process environment from which it reads the
    key, and raises when it does not accept it. *)
Class Collaborators : Type := {
  ExtState : Type;
  DataManager : Type;
  imported_system_prompt : string;
  QADataManager_new : ExtState -> outcome DataManager * ExtState;
  ChatOpenAI_init :
    gmap string string -> ChatOpenAI -> ExtState -> outcome unit * ExtState;
  PromptTemplate_init : PromptTemplate -> ExtState -> outcome unit * ExtState;
  LLMChain_init : LLMChain -> ExtState -> outcome unit * ExtState;
  DataManager_find : DataManager -> string -> ExtState -> outcome pyval * ExtState;
  LLMChain_run :
    LLMChain -> string -> list pyval -> ExtState -> outcome string * ExtState
}.

(** ** The engine *)

Section Engine.
Context `{Collab : Collaborators}.

(** Everything outside the engine object that its code touches: the two
    console streams ([stdout] by printed line, [stderr] by written chunk),
    the module-level [openai.api_key], the log of outgoing calls and the
    state of the outside world.  The streams hold what the statements of
    the engine write; what a collaborator prints while it runs (the
    retry warnings of a library) is counted with the outside world. *)
Record World : Type := {
  stdout : list string;
  stderr : list string;
  openai_api_key : option string;
  calls : list event;
  ext : ExtState
}.

(** The attributes [__init__] assigns to [self]. *)
Record ChatEngine : Type := {
  chat_history : ChatHistory;
  data_manager : DataManager;
  system_template : string;
  system_prompt : PromptTemplate;
  chain : LLMChain
}.

Record State : Type := { self : ChatEngine; world : World }.

(** *** Effects on the world *)

Definition write_stdout (line : string) (w : World) : World :=
  {| stdout := w.(stdout) ++ [line]; stderr := w.(stderr);
     openai_api_key := w.(openai_api_key); calls := w.(calls);
     ext := w.(ext) |}.

Definition write_stderr (chunk : string) (w : World) : World :=
  {| stdout := w.(stdout); stderr := w.(stderr) ++ [chunk];
     openai_api_key := w.(openai_api_key); calls := w.(calls);
     ext := w.(ext) |}.

Definition store_api_key (key : string) (w : World) : World :=
  {| stdout := w.(stdout); stderr := w.(stderr);
     openai_api_key := Some key; calls := w.(calls); ext := w.(ext) |}.

(** The world once the call [ev] was made and left the outside in [x]. *)
Definition log_call (ev : event) (x : ExtState) (w : World) : World :=
  {| stdout := w.(stdout); stderr := w.(stderr);
     openai_api_key := w.(openai_api_key); calls := w.(calls) ++ [ev];
     ext := x |}.

(** [print(line)] *)
Definition print (line : string) : M World unit :=
  fun w => (Ret tt, write_stdout line w).

(** [sys.stderr.write(chunk)] *)
Definition stderr_write (chunk : string) : M World unit :=
  fun w => (Ret tt, write_stderr chunk w).

(** [openai.api_key = key] *)
Definition set_openai_api_key (key : string) : M World unit :=
  fun w => (Ret tt, store_api_key key w).

(** [sys.exit(code)] raises [SystemExit(code)]. *)
Definition sys_exit {S A} (code : Z) : M S A := raise (SystemExit code).

(** An outgoing call: logged when made, then answered by the collaborator,
    whether it returns or raises. *)
Definition extern {A} (ev : event) (oracle : ExtState -> outcome A * ExtState)
    : M World A :=
  fun w =>
    let (o, x) := oracle w.(ext) in
    (o, log_call ev x w).

(** [QADataManager()] *)
Definition QADataManager : M World DataManager :=
  extern EvNewDataManager QADataManager_new.

(** [dm.find(query)] *)
Definition find (dm : DataManager) (query : string) : M World pyval :=
  extern (EvFind query) (DataManager_find dm query).

(** The world once a local call left the outside in [x]. *)
Definition with_ext (x : ExtState) (w : World) : World :=
  {| stdout := w.(stdout); stderr := w.(stderr);
     openai_api_key := w.(openai_api_key); calls := w.(calls); ext := x |}.

(** The construction of a configuration holder: the object is the one
    described by the arguments, unless its constructor raises. *)
Definition construct {A} (init : ExtState -> outcome unit * ExtState) (obj : A)
    : M World A :=
  fun w =>
    let (o, x) := init w.(ext) in
    (match o with
     | Ret _ => Ret obj
     | Raise e => Raise e
     end,
     with_ext x w).

(** [ChatOpenAI(temperature=temperature, model=model)] *)
Definition new_ChatOpenAI (environ : gmap string string) (temperature : Z)
    (model : string) : M World ChatOpenAI :=
  construct
    (ChatOpenAI_init environ {| temperature := temperature; model := model |})
    {| temperature := temperature; model := model |}.

(** [PromptTemplate(input_variables=input_variables, template=template)] *)
Definition new_PromptTemplate (input_variables : list string) (template : string)
    : M World PromptTemplate :=
  construct
    (PromptTemplate_init
       {| input_variables := input_variables; template := template |})
    {| input_variables := input_variables; template := template |}.

(** [LLMChain(llm=llm, prompt=prompt)] *)
Definition new_LLMChain (llm : ChatOpenAI) (prompt : PromptTemplate)
    : M World LLMChain :=
  construct (LLMChain_init {| llm := llm; prompt := prompt |})
    {| llm := llm; prompt := prompt |}.

(** [c.run(message=message, best_practice=best_practice)] *)
Definition chain_run (c : LLMChain) (message : string)
    (best_practice : list pyval) : M World string :=
  extern (EvRun c message best_practice) (LLMChain_run c message best_practice).

(** *** Effects on the engine *)

Definition with_world (w : World) (st : State) : State :=
  {| self := st.(self); world := w |}.

Definition with_turn (role text : string) (st : State) : State :=
  {| self :=
       {| chat_history := add_message role text st.(self).(chat_history);
          data_manager := st.(self).(data_manager);
          system_template := st.(self).(system_template);
          system_prompt := st.(self).(system_prompt);
          chain := st.(self).(chain) |};
     world := st.(world) |}.

(** A world effect inside a method: [self] is untouched. *)
Definition in_world {A} (c : M World A) : M State A :=
  fun st =>
    let (o, w) := c st.(world) in
    (o, with_world w st).

(** Read an attribute of [self]. *)
Definition attr {A} (field : ChatEngine -> A) : M State A :=
  fun st => (Ret (field st.(self)), st).

(** [self.chat_history.add_message(role, text)] *)
Definition chat_history_add_message (role text : string) : M State unit :=
  fun st => (Ret tt, with_turn role text st).

(** *** [ChatEngine.__init__] *)

Definition __init__ (environ : gmap string string) : M World ChatEngine :=
  exec try_except
         (do key <- lift (environ_getitem environ "OPENAI_API_KEY");
          set_openai_api_key key)
         isinstance_KeyError
         (fun _ =>
            exec stderr_write "API key not found.";
            sys_exit 1);
  let chat_history := ChatHistory_new in
  do data_manager <- QADataManager;
  do llm <- new_ChatOpenAI environ 0 "gpt-3.5-turbo";
  let system_template := imported_system_prompt in
  do system_prompt <-
    new_PromptTemplate ["message"; "best_practice"] system_template;
  do chain <- new_LLMChain llm system_prompt;
  ret {| chat_history := chat_history;
         data_manager := data_manager;
         system_template := system_template;
         system_prompt := system_prompt;
         chain := chain |}.

(** *** [ChatEngine.generate_best_practice] *)

Definition generate_best_practice (user_message : string)
    : M State (list pyval) :=
  try_except
    (do dm <- attr data_manager;
     do similar_responses <- in_world (find dm user_message);
     do responses <- lift (py_iter similar_responses);
     comprehension (fun response => lift (py_getitem response "answer"))
       responses)
    isinstance_Exception
    (fun e =>
       exec in_world
              (print ("Error in generating best practices: " +:+ str_exn e));
       ret []).

(** *** [ChatEngine.process_user_input] *)

Definition process_user_input (message : string) : M State string :=
  exec chat_history_add_message "user" message;
  do best_practices <- generate_best_practice message;
  do c <- attr chain;
  do bot_response <- in_world (chain_run c message best_practices);
  exec chat_history_add_message "bot" bot_response;
  ret bot_response.

(** *** The process and the prompt *)

(** The status with which the interpreter ends when the outcome reaches
    the top level: 0 on a normal end; the low byte of the code of an
    uncaught [SystemExit]; 130 after an uncaught [KeyboardInterrupt]
    (death by SIGINT, as a shell reports it); 1 after any other
    traceback. *)
Definition exit_status {A} (o : outcome A) : Z :=
  match o with
  | Ret _ => 0
  | Raise (SystemExit code) => code mod 256
  | Raise KeyboardInterrupt => 130
  | Raise _ => 1
  end.

(** Engine states a program can be in: after a successful construction,
    after any call of [process_user_input] (returning or raising), and
    after the outside world moved on between calls. *)
Inductive reachable : State -> Prop :=
| reach_init environ w e w' :
    __init__ environ w = (Ret e, w') ->
    reachable {| self := e; world := w' |}
| reach_call st message :
    reachable st ->
    reachable (snd (process_user_input message st))
| reach_world st w :
    reachable st ->
    reachable (with_world w st).

End Engine.

(** ** Vocabulary of the statements *)

(** The comprehension without its state: the first raise wins. *)
Fixpoint collect {A B} (f : A -> outcome B) (xs : list A) : outcome (list B) :=
  match xs with
  | [] => Ret []
  | x :: xs' =>
      match f x with
      | Ret y =>
          match collect f xs' with
          | Ret ys => Ret (y :: ys)
          | Raise e => Raise e
          end
      | Raise e => Raise e
      end
  end.

(** [[response["answer"] for response in v]] as a value or a raise. *)
Definition answers_of (v : pyval) : outcome (list pyval) :=
  match py_iter v with
  | Ret responses => collect (fun response => py_getitem response "answer") responses
  | Raise e => Raise e
  end.

(** A retrieval record, and the dict the retriever returns for it. *)
Record BestPracticeRecord : Type := { question : string; answer : string }.

Definition record_dict (r : BestPracticeRecord) : pyval :=
  PyDict [("question", PyStr r.(question)); ("answer", PyStr r.(answer))].

(** A record from which ["answer"] cannot be read. *)
Definition lacks_answer (response : pyval) : bool :=
  match py_getitem response "answer" with
  | Ret _ => false
  | Raise _ => true
  end.

(** A retrieval result that is not iterable, or holds a record without an
    answer. *)
Definition malformed (v : pyval) : bool :=
  match py_iter v with
  | Ret responses => existsb lacks_answer responses
  | Raise _ => true
  end.

(** The line [generate_best_practice] prints for a caught [e]. *)
Definition error_line (e : exn) : string :=
  "Error in generating best practices: " +:+ str_exn e.

(** ** Sample collaborators *)

(** A small outside world on which the statements can be run: the external
    state counts the calls served; the retriever knows one question, is
    down for ["offline"], is interrupted from the keyboard for ["ctrl-c"]
    and returns a record without answer for ["broken"]; the chain echoes,
    and fails on ["overload"]. *)
Definition sample_find (query : string) (served : nat)
    : outcome pyval * nat :=
  (if String.eqb query "How do I reset my password?" then
     Ret (PyList [record_dict {| question := "Password reset?";
                                 answer := "Use the self-service portal" |}])
   else if String.eqb query "offline" then
     Raise (PyException "ConnectionError" "connection refused")
   else if String.eqb query "ctrl-c" then
     Raise KeyboardInterrupt
   else if String.eqb query "broken" then
     Ret (PyList [record_dict {| question := "q1"; answer := "a1" |};
                  PyDict [("question", PyStr "q2")]])
   else Ret (PyList []),
   S served).

Definition sample_run (message : string) (served : nat)
    : outcome string * nat :=
  (if String.eqb message "overload" then
     Raise (PyException "RateLimitError" "try again later")
   else Ret ("echo: " +:+ message),
   S served).

(** The check of [ChatOpenAI] on the key it reads from the environment:
    a key that is missing or empty is refused. *)
Definition sample_ChatOpenAI_init (environ : gmap string string)
    (cfg : ChatOpenAI) (served : nat) : outcome unit * nat :=
  (match environ !! "OPENAI_API_KEY" with
   | Some (String _ _) => Ret tt
   | _ => Raise (PyException "ValidationError" "Did not find openai_api_key")
   end,
   served).

#[local] Instance sample : Collaborators := {|
  ExtState := nat;
  DataManager := unit;
  imported_system_prompt := "Answer {message} using {best_practice}";
  QADataManager_new := fun served => (Ret tt, S served);
  ChatOpenAI_init := sample_ChatOpenAI_init;
  PromptTemplate_init := fun _ served => (Ret tt, served);
  LLMChain_init := fun _ served => (Ret tt, served);
  DataManager_find := fun _ => sample_find;
  LLMChain_run := fun _ message _ => sample_run message
|}.

Definition sample_world : World :=
  {| stdout := []; stderr := []; openai_api_key := None; calls := [];
     ext := 0%nat |}.

Definition sample_environ : gmap string string :=
  {[ "OPENAI_API_KEY" := "sk-test" ]}.

(** The engine [__init__] builds on the sample world. *)
Definition sample_state : State :=
  {| self :=
       {| chat_history := [];
          data_manager := tt;
          system_template := "Answer {message} using {best_practice}";
          system_prompt :=
            {| input_variables := ["message"; "best_practice"];
               template := "Answer {message} using {best_practice}" |};
          chain :=
            {| llm := {| temperature := 0; model := "gpt-3.5-turbo" |};
               prompt :=
                 {| input_variables := ["message"; "best_practice"];
                    template := "Answer {message} using {best_practice}" |} |} |};
     world :=
       {| stdout := []; stderr := []; openai_api_key := Some "sk-test";
          calls := [EvNewDataManager]; ext := 1%nat |} |}.

(** A second retriever, with results of odd shapes: for ["scored"] records
    with a further field and an answer that is not a string, for ["bare"]
    one record that is not wrapped in a list, for anything else an empty
    list.  Its constructor fails for want of a configuration key. *)
Definition odd_find (query : string) (served : nat) : outcome pyval * nat :=
  (if String.eqb query "scored" then
     Ret (PyList [PyDict [("score", PyInt 7); ("answer", PyStr "Restart it");
                          ("question", PyStr "It hangs")];
                  PyDict [("answer", PyNone)]])
   else if String.eqb query "bare" then
     Ret (PyDict [("question", PyStr "q"); ("answer", PyStr "a")])
   else Ret (PyList []),
   S served).

Definition odd : Collaborators := {|
  ExtState := nat;
  DataManager := unit;
  imported_system_prompt := "{message} {best_practice}";
  QADataManager_new := fun served => (Raise (KeyError "DB_URL"), S served);
  ChatOpenAI_init := sample_ChatOpenAI_init;
  PromptTemplate_init := fun _ served => (Ret tt, served);
  LLMChain_init := fun _ served => (Ret tt, served);
  DataManager_find := fun _ => odd_find;
  LLMChain_run := fun _ message _ => sample_run message
|}.

Definition odd_world : @World odd := @Build_World odd [] [] None [] 0%nat.

Definition odd_state : @State odd :=
  @Build_State odd
    (@Build_ChatEngine odd [] tt "{message} {best_practice}"
       {| input_variables := ["message"; "best_practice"];
          template := "{message} {best_practice}" |}
       {| llm := {| temperature := 0; model := "gpt-3.5-turbo" |};
          prompt :=
            {| input_variables := ["message"; "best_practice"];
               template := "{message} {best_practice}" |} |})
    odd_world.

(** Histories made of exchanges: each call leaves the user's turn, and the
    bot's turn after it when it returned. *)
Inductive exchanges : list Turn -> Prop :=
| exchanges_none : exchanges []
| exchanges_failed h m :
    exchanges h -> exchanges (h ++ [{| role := "user"; text := m |}])
| exchanges_answered h m response :
    exchanges h ->
    exchanges (h ++ [{| role := "user"; text := m |};
                     {| role := "bot"; text := response |}]).

(** ** Equations of the methods *)

Section Facts.
Context `{Collab : Collaborators}.

Lemma comprehension_lift {S A B} (f : A -> outcome B) (xs : list A) (s : S) :
  comprehension (fun x => lift (f x)) xs s = (collect f xs, s).
Proof.
  induction xs as [|x xs IH]; simpl; [reflexivity|].
  unfold bind, lift at 1. destruct (f x) as [y|e]; [|reflexivity].
  rewrite IH. destruct (collect f xs); reflexivity.
Qed.

Lemma comprehension_answers (responses : list pyval) (st : State) :
  comprehension (fun response s => (py_getitem response "answer", s)) responses st
  = (collect (fun response => py_getitem response "answer") responses, st).
Proof. apply (comprehension_lift (fun r => py_getitem r "answer")). Qed.

(** Reading a record never raises outside [Exception]: a missing key is a
    [KeyError], anything else a [TypeError]. *)
Lemma py_getitem_raises_Exception (v : pyval) (key : string) (e : exn) :
  py_getitem v key = Raise e -> isinstance_Exception e = true.
Proof.
  destruct v; simpl; try (intros [= <-]; reflexivity).
  destruct (dict_get items key); intros [= <-]. reflexivity.
Qed.

Lemma collect_raises {A B} (f : A -> outcome B) (xs : list A) (e : exn) :
  collect f xs = Raise e -> exists x, x ∈ xs /\ f x = Raise e.
Proof.
  induction xs as [|x xs IH]; simpl; [discriminate|].
  destruct (f x) as [y|e'] eqn:Hx.
  - destruct (collect f xs) as [ys|e'']; [discriminate|].
    intros [= ->]. destruct (IH eq_refl) as (x' & Hin & Hx').
    exists x'. split; [by apply list_elem_of_further | done].
  - intros [= ->]. exists x. split; [apply list_elem_of_here | done].
Qed.

Lemma answers_of_raises_Exception (v : pyval) (e : exn) :
  answers_of v = Raise e -> isinstance_Exception e = true.
Proof.
  unfold answers_of. destruct (py_iter v) as [responses|e'] eqn:Hiter.
  - intros Hc. apply collect_raises in Hc as (r & _ & Hr).
    by eapply py_getitem_raises_Exception.
  - intros [= ->]. destruct v; simpl in Hiter; try discriminate;
      injection Hiter as <-; reflexivity.
Qed.

Lemma collect_lacking (responses : list pyval) :
  existsb lacks_answer responses = true ->
  exists e, collect (fun r => py_getitem r "answer") responses = Raise e.
Proof.
  induction responses as [|r rs IH]; simpl; [discriminate|].
  unfold lacks_answer at 1.
  destruct (py_getitem r "answer") as [a|e]; simpl; [|by eexists].
  intros H. destruct (IH H) as [e ->]. by eexists.
Qed.

Lemma malformed_raises (v : pyval) :
  malformed v = true -> exists e, answers_of v = Raise e.
Proof.
  unfold malformed, answers_of. destruct (py_iter v) as [rs|e].
  - apply collect_lacking.
  - intros _. by eexists.
Qed.

Lemma answers_of_records (recs : list BestPracticeRecord) :
  answers_of (PyList (map record_dict recs))
  = Ret (map (fun r => PyStr r.(answer)) recs).
Proof.
  unfold answers_of. simpl.
  induction recs as [|r recs IH]; simpl; [reflexivity|].
  by rewrite IH.
Qed.

(** [generate_best_practice], step by step: one call of the retriever;
    its answers on success; the log line and the empty list when the
    [except Exception] clause selects what was raised; the raise itself
    otherwise. *)
Lemma generate_best_practice_eq (user_message : string) (st : State) :
  generate_best_practice user_message st =
  match DataManager_find st.(self).(data_manager) user_message st.(world).(ext) with
  | (o, x) =>
      let w := log_call (EvFind user_message) x st.(world) in
      match match o with Ret v => answers_of v | Raise e => Raise e end with
      | Ret best => (Ret best, with_world w st)
      | Raise e =>
          if isinstance_Exception e
          then (Ret [], with_world (write_stdout (error_line e) w) st)
          else (Raise e, with_world w st)
      end
  end.
Proof.
  unfold generate_best_practice, try_except, bind, attr, in_world, find, extern.
  destruct (DataManager_find _ _ _) as [[v|e] x]; simpl.
  - unfold lift at 1, answers_of. destruct (py_iter v) as [rs|e]; simpl.
    + rewrite comprehension_answers. destruct (collect _ rs) as [best|e]; [done|].
      destruct (isinstance_Exception e); reflexivity.
    + destruct (isinstance_Exception e); reflexivity.
  - destruct (isinstance_Exception e); reflexivity.
Qed.

(** [process_user_input], step by step. *)
Lemma process_user_input_eq (message : string) (st : State) :
  process_user_input message st =
  match generate_best_practice message (with_turn "user" message st) with
  | (Ret best_practices, st2) =>
      match LLMChain_run st2.(self).(chain) message best_practices
              st2.(world).(ext) with
      | (o, x) =>
          let st3 :=
            with_world
              (log_call (EvRun st2.(self).(chain) message best_practices) x
                 st2.(world)) st2 in
          match o with
          | Ret bot_response => (Ret bot_response, with_turn "bot" bot_response st3)
          | Raise e => (Raise e, st3)
          end
      end
  | (Raise e, st2) => (Raise e, st2)
  end.
Proof.
  unfold process_user_input, bind, chat_history_add_message.
  destruct (generate_best_practice _ _) as [[best|e] st2]; [|reflexivity].
  unfold attr, in_world, chain_run, extern.
  destruct (LLMChain_run _ _ _ _) as [[r|e] x]; reflexivity.
Qed.

(** The retrieval step leaves [self] as it found it. *)
Lemma generate_best_practice_self (user_message : string) (st : State) :
  (snd (generate_best_practice user_message st)).(self) = st.(self).
Proof.
  rewrite generate_best_practice_eq.
  destruct (DataManager_find _ _ _) as [[v|e] x]; simpl.
  - destruct (answers_of v) as [best|e]; [reflexivity|].
    destruct (isinstance_Exception e); reflexivity.
  - destruct (isinstance_Exception e); reflexivity.
Qed.

(** The retrieval step makes one outgoing call, the search. *)
Lemma generate_best_practice_calls (user_message : string) (st : State) :
  (snd (generate_best_practice user_message st)).(world).(calls)
  = st.(world).(calls) ++ [EvFind user_message].
Proof.
  rewrite generate_best_practice_eq.
  destruct (DataManager_find _ _ _) as [[v|e] x]; simpl.
  - destruct (answers_of v) as [best|e]; [reflexivity|].
    destruct (isinstance_Exception e); reflexivity.
  - destruct (isinstance_Exception e); reflexivity.
Qed.

Lemma count_runs_app (evs evs' : list event) :
  count_runs (evs ++ evs') = (count_runs evs + count_runs evs')%nat.
Proof. unfold count_runs. by rewrite filter_app, length_app. Qed.

Lemma count_runs_find (evs : list event) (query : string) :
  count_runs (evs ++ [EvFind query]) = count_runs evs.
Proof.
  rewrite count_runs_app.
  replace (count_runs [EvFind query]) with 0%nat by reflexivity. lia.
Qed.

Lemma count_runs_run (evs : list event) (c : LLMChain) (message : string)
    (best_practice : list pyval) :
  count_runs (evs ++ [EvRun c message best_practice]) = S (count_runs evs).
Proof.
  rewrite count_runs_app.
  replace (count_runs [EvRun c message best_practice]) with 1%nat by reflexivity.
  lia.
Qed.

(** What a returning retrieval step leaves behind, seen from the caller. *)
Lemma generate_best_practice_frame (user_message : string) (st st2 : State)
    (o : outcome (list pyval)) :
  generate_best_practice user_message st = (o, st2) ->
  st2.(self) = st.(self)
  /\ st2.(world).(calls) = st.(world).(calls) ++ [EvFind user_message]
  /\ st2.(world).(ext)
     = snd (DataManager_find st.(self).(data_manager) user_message
              st.(world).(ext)).
Proof.
  intros H. split; [|split].
  - rewrite <- (generate_best_practice_self user_message st). by rewrite H.
  - rewrite <- (generate_best_practice_calls user_message st). by rewrite H.
  - rewrite generate_best_practice_eq in H.
    destruct (DataManager_find _ _ _) as [[v|e] x]; simpl in *.
    + destruct (answers_of v) as [best|e]; [by injection H as _ <-|].
      destruct (isinstance_Exception e); by injection H as _ <-.
    + destruct (isinstance_Exception e); by injection H as _ <-.
Qed.

(** The retrieval step inside a call: the engine it returns to. *)
Lemma retrieval_in_call (m : string) (st st2 : State) (o : outcome (list pyval)) :
  generate_best_practice m (with_turn "user" m st) = (o, st2) ->
  st2.(self).(chain) = st.(self).(chain)
  /\ st2.(self).(chat_history)
     = st.(self).(chat_history) ++ [{| role := "user"; text := m |}]
  /\ st2.(world).(calls) = st.(world).(calls) ++ [EvFind m]
  /\ st2.(world).(ext)
     = snd (DataManager_find st.(self).(data_manager) m st.(world).(ext)).
Proof.
  intros Hg. apply generate_best_practice_frame in Hg as (Hself & Hcalls & Hext).
  rewrite Hself. auto.
Qed.

(** The rest of a call once the retrieval step returned. *)
Lemma process_user_input_after_retrieval
    (m : string) (st st2 : State) (best_practice : list pyval) :
  generate_best_practice m (with_turn "user" m st) = (Ret best_practice, st2) ->
  process_user_input m st =
  match LLMChain_run st.(self).(chain) m best_practice st2.(world).(ext) with
  | (Ret bot_response, x) =>
      (Ret bot_response,
       with_turn "bot" bot_response
         (with_world
            (log_call (EvRun st.(self).(chain) m best_practice) x st2.(world))
            st2))
  | (Raise e, x) =>
      (Raise e,
       with_world
         (log_call (EvRun st.(self).(chain) m best_practice) x st2.(world)) st2)
  end.
Proof.
  intros Hg. rewrite process_user_input_eq, Hg.
  apply retrieval_in_call in Hg as (-> & _).
  destruct (LLMChain_run _ _ _ _) as [[r|e] x]; reflexivity.
Qed.

(** ** Properties of the specification *)

(** C1. A call of [process_user_input m] that completes has appended
    exactly two turns to the history, the user's message and then the
    bot's response, and returns that response.  The response is what the
    chain returned for the best practices of the retrieval step: the
    answers when retrieval succeeded, the empty list when the retriever
    raised or its result could not be mapped. *)
Theorem process_user_input_appends_two_turns
    (m : string) (st st' : State) (response : string) :
  process_user_input m st = (Ret response, st') ->
  st'.(self).(chat_history)
  = st.(self).(chat_history)
      ++ [{| role := "user"; text := m |}; {| role := "bot"; text := response |}]
  /\ exists best_practice,
       fst (generate_best_practice m (with_turn "user" m st)) = Ret best_practice
       /\ fst (LLMChain_run st.(self).(chain) m best_practice
                 (snd (DataManager_find st.(self).(data_manager) m
                         st.(world).(ext))))
          = Ret response
       /\ match fst (DataManager_find st.(self).(data_manager) m
                       st.(world).(ext)) with
          | Ret v =>
              match answers_of v with
              | Ret answers => best_practice = answers
              | Raise _ => best_practice = []
              end
          | Raise _ => best_practice = []
          end.
Proof.
  intros Hcall.
  destruct (generate_best_practice m (with_turn "user" m st))
    as [[best|e] st2] eqn:Hg;
    [|rewrite process_user_input_eq, Hg in Hcall; discriminate].
  rewrite (process_user_input_after_retrieval _ _ _ _ Hg) in Hcall.
  pose proof (retrieval_in_call _ _ _ _ Hg) as (_ & Hhist & _ & Hext).
  rewrite Hext in Hcall.
  destruct (LLMChain_run _ _ _ _) as [[r|e] x] eqn:Hrun; [|discriminate].
  injection Hcall as -> <-. split.
  - simpl. unfold add_message. by rewrite Hhist, <- app_assoc.
  - exists best. split; [reflexivity|]. split; [by rewrite Hrun|].
    rewrite generate_best_practice_eq in Hg. simpl in Hg.
    destruct (DataManager_find _ _ _) as [[v|e'] x']; simpl in *.
    + destruct (answers_of v) as [answers|e']; [congruence|].
      destruct (isinstance_Exception e'); congruence.
    + destruct (isinstance_Exception e'); congruence.
Qed.

(** C2, as amended.  When the retriever's [find m] raises an instance of
    [Exception], [generate_best_practice m] returns the empty list and
    raises nothing; the error is only printed. *)
Theorem generate_best_practice_recovers_from_Exception
    (m : string) (st : State) (e : exn) (x : ExtState) :
  DataManager_find st.(self).(data_manager) m st.(world).(ext) = (Raise e, x) ->
  isinstance_Exception e = true ->
  generate_best_practice m st
  = (Ret [],
     with_world
       (write_stdout (error_line e) (log_call (EvFind m) x st.(world))) st).
Proof.
  intros Hfind He. rewrite generate_best_practice_eq, Hfind. simpl.
  by rewrite He.
Qed.

(** C3. When the retriever returns the records [{q1,a1}, {q2,a2}, ...],
    [generate_best_practice m] returns their answers [a1, a2, ...] in the
    retriever's order, without the questions. *)
Theorem generate_best_practice_maps_answers
    (m : string) (st : State) (recs : list BestPracticeRecord) (x : ExtState) :
  DataManager_find st.(self).(data_manager) m st.(world).(ext)
  = (Ret (PyList (map record_dict recs)), x) ->
  generate_best_practice m st
  = (Ret (map (fun r => PyStr r.(answer)) recs),
     with_world (log_call (EvFind m) x st.(world)) st).
Proof.
  intros Hfind. rewrite generate_best_practice_eq, Hfind.
  cbv zeta. by rewrite answers_of_records.
Qed.

(** C4, as amended.  When the retrieval step of [process_user_input m]
    returns, with [best_practice], the chain is run exactly once, with
    [message = m] and that [best_practice]; the string the chain returns
    is the value of the call and the text of the bot turn it appends. *)
Theorem process_user_input_runs_chain_once
    (m : string) (st st2 : State) (best_practice : list pyval) :
  generate_best_practice m (with_turn "user" m st) = (Ret best_practice, st2) ->
  (snd (process_user_input m st)).(world).(calls)
  = st.(world).(calls) ++ [EvFind m; EvRun st.(self).(chain) m best_practice]
  /\ count_runs (snd (process_user_input m st)).(world).(calls)
     = S (count_runs st.(world).(calls))
  /\ forall response x,
       LLMChain_run st.(self).(chain) m best_practice st2.(world).(ext)
       = (Ret response, x) ->
       fst (process_user_input m st) = Ret response
       /\ (snd (process_user_input m st)).(self).(chat_history)
          = st.(self).(chat_history)
              ++ [{| role := "user"; text := m |};
                  {| role := "bot"; text := response |}].
Proof.
  intros Hg. rewrite (process_user_input_after_retrieval _ _ _ _ Hg).
  pose proof (retrieval_in_call _ _ _ _ Hg) as (_ & Hhist & Hcalls & _).
  destruct (LLMChain_run _ _ _ _) as [[r|e] x]; simpl;
    rewrite Hcalls, <- app_assoc; simpl.
  - split; [reflexivity|]. split.
    + change [EvFind m; EvRun st.(self).(chain) m best_practice]
        with ([EvFind m] ++ [EvRun st.(self).(chain) m best_practice]).
      by rewrite app_assoc, count_runs_run, count_runs_find.
    + intros response x' [= -> ->]. split; [reflexivity|].
      unfold add_message. by rewrite Hhist, <- app_assoc.
  - split; [reflexivity|]. split; [|discriminate].
    change [EvFind m; EvRun st.(self).(chain) m best_practice]
      with ([EvFind m] ++ [EvRun st.(self).(chain) m best_practice]).
    by rewrite app_assoc, count_runs_run, count_runs_find.
Qed.

(** C5. When the chain's [run] raises during [process_user_input m], the
    same error leaves the call unhandled: the chain was run once and not
    again, and the call ends where the raise found it, with nothing
    returned, printed or recorded in place of a response. *)
Theorem process_user_input_propagates_completion_error
    (m : string) (st st2 : State) (best_practice : list pyval)
    (e : exn) (x : ExtState) :
  generate_best_practice m (with_turn "user" m st) = (Ret best_practice, st2) ->
  LLMChain_run st.(self).(chain) m best_practice st2.(world).(ext) = (Raise e, x) ->
  process_user_input m st
  = (Raise e,
     with_world
       (log_call (EvRun st.(self).(chain) m best_practice) x st2.(world)) st2)
  /\ count_runs (snd (process_user_input m st)).(world).(calls)
     = S (count_runs st.(world).(calls)).
Proof.
  intros Hg Hrun. rewrite (process_user_input_after_retrieval _ _ _ _ Hg), Hrun.
  pose proof (retrieval_in_call _ _ _ _ Hg) as (_ & _ & Hcalls & _).
  split; [reflexivity|].
  cbn [fst snd with_world self world log_call calls].
  by rewrite Hcalls, count_runs_run, count_runs_find.
Qed.

(** C6. When [OPENAI_API_KEY] is not in the environment, the constructor
    writes "API key not found." to the error stream and raises
    [SystemExit(1)], a non-zero exit status, before any outgoing call. *)
Theorem init_without_api_key_exits (environ : gmap string string) (w : World) :
  environ !! "OPENAI_API_KEY" = None ->
  __init__ environ w = (Raise (SystemExit 1), write_stderr "API key not found." w)
  /\ exit_status (fst (__init__ environ w)) <> 0
  /\ (snd (__init__ environ w)).(stderr) = w.(stderr) ++ ["API key not found."]
  /\ (snd (__init__ environ w)).(calls) = w.(calls)
  /\ (snd (__init__ environ w)).(ext) = w.(ext).
Proof.
  intros Hkey.
  assert (Hinit : __init__ environ w
                  = (Raise (SystemExit 1), write_stderr "API key not found." w)).
  { unfold __init__, bind, try_except, lift, environ_getitem.
    rewrite Hkey. reflexivity. }
  rewrite Hinit. simpl. repeat split; discriminate.
Qed.

(** C8. When the chain's [run] raises during [process_user_input m], the
    user turn is already in the history and stays: the failed call leaves
    the history one turn longer, with no bot turn. *)
Theorem process_user_input_keeps_user_turn_on_failure
    (m : string) (st st2 : State) (best_practice : list pyval)
    (e : exn) (x : ExtState) :
  generate_best_practice m (with_turn "user" m st) = (Ret best_practice, st2) ->
  LLMChain_run st.(self).(chain) m best_practice st2.(world).(ext) = (Raise e, x) ->
  (snd (process_user_input m st)).(self).(chat_history)
  = st.(self).(chat_history) ++ [{| role := "user"; text := m |}]
  /\ length (snd (process_user_input m st)).(self).(chat_history)
     = S (length st.(self).(chat_history)).
Proof.
  intros Hg Hrun. rewrite (process_user_input_after_retrieval _ _ _ _ Hg), Hrun.
  pose proof (retrieval_in_call _ _ _ _ Hg) as (_ & Hhist & _).
  simpl. rewrite Hhist. split; [reflexivity|].
  rewrite length_app. simpl. lia.
Qed.

(** C9. [generate_best_practice] leaves the engine as it was, history
    included, whether the retriever returns or raises. *)
Theorem generate_best_practice_preserves_engine (m : string) (st : State) :
  (snd (generate_best_practice m st)).(self) = st.(self)
  /\ (snd (generate_best_practice m st)).(self).(chat_history)
     = st.(self).(chat_history).
Proof.
  pose proof (generate_best_practice_self m st) as H.
  split; [exact H | by rewrite H].
Qed.

(** C10. One malformed record discards the whole result: when the value
    the retriever returns cannot be iterated, or holds a record without
    ["answer"], mapping the answers raises, the handler catches it, and
    [generate_best_practice] returns the empty list, not the answers of
    the well-formed records. *)
Theorem generate_best_practice_discards_all_on_malformed
    (m : string) (st : State) (v : pyval) (x : ExtState) :
  DataManager_find st.(self).(data_manager) m st.(world).(ext) = (Ret v, x) ->
  malformed v = true ->
  exists e,
    answers_of v = Raise e
    /\ generate_best_practice m st
       = (Ret [],
          with_world
            (write_stdout (error_line e) (log_call (EvFind m) x st.(world))) st).
Proof.
  intros Hfind Hbad. destruct (malformed_raises v Hbad) as [e He].
  exists e. split; [exact He|].
  rewrite generate_best_practice_eq, Hfind. cbv zeta. rewrite He.
  by rewrite (answers_of_raises_Exception v e He).
Qed.

End Facts.

(** ** The properties on the sample collaborators *)

(** C1 at a call whose retrieval fails: the retriever is offline, the chain
    still answers, and the history gains the two turns. *)
Lemma process_user_input_appends_two_turns_witness :
  process_user_input "offline" sample_state
  = (Ret "echo: offline", snd (process_user_input "offline" sample_state))
  /\ (snd (process_user_input "offline" sample_state)).(self).(chat_history)
     = [{| role := "user"; text := "offline" |};
        {| role := "bot"; text := "echo: offline" |}].
Proof.
  split; [reflexivity|].
  apply (process_user_input_appends_two_turns "offline" sample_state
           (snd (process_user_input "offline" sample_state)) "echo: offline").
  reflexivity.
Defined.

(** C2, the claim as stated fails: a [KeyboardInterrupt] raised by [find]
    is not an [Exception]; it leaves [generate_best_practice] as it came,
    and no empty list is returned. *)
Lemma generate_best_practice_propagates_KeyboardInterrupt :
  DataManager_find sample_state.(self).(data_manager) "ctrl-c"
    sample_state.(world).(ext)
  = (Raise KeyboardInterrupt, 2%nat)
  /\ generate_best_practice "ctrl-c" sample_state
     = (Raise KeyboardInterrupt,
        with_world (log_call (EvFind "ctrl-c") 2%nat sample_state.(world))
          sample_state)
  /\ fst (generate_best_practice "ctrl-c" sample_state) <> Ret [].
Proof. repeat split. discriminate. Qed.

(** C2 as amended, at a retriever that is offline. *)
Lemma generate_best_practice_recovers_from_Exception_witness :
  isinstance_Exception (PyException "ConnectionError" "connection refused") = true
  /\ generate_best_practice "offline" sample_state
     = (Ret [],
        with_world
          (write_stdout
             (error_line (PyException "ConnectionError" "connection refused"))
             (log_call (EvFind "offline") 2%nat sample_state.(world)))
          sample_state).
Proof.
  split; [reflexivity|].
  apply (generate_best_practice_recovers_from_Exception "offline" sample_state
           (PyException "ConnectionError" "connection refused") 2%nat);
    reflexivity.
Defined.

(** C3 at the password question. *)
Lemma generate_best_practice_maps_answers_witness :
  generate_best_practice "How do I reset my password?" sample_state
  = (Ret [PyStr "Use the self-service portal"],
     with_world
       (log_call (EvFind "How do I reset my password?") 2%nat
          sample_state.(world))
       sample_state).
Proof.
  apply (generate_best_practice_maps_answers "How do I reset my password?"
           sample_state
           [{| question := "Password reset?";
               answer := "Use the self-service portal" |}] 2%nat).
  reflexivity.
Defined.

(** C4 at the password question: one run, with the retrieved answer, and
    the echo is both returned and recorded. *)
Lemma process_user_input_runs_chain_once_witness :
  (snd (process_user_input "How do I reset my password?" sample_state))
    .(world).(calls)
  = [EvNewDataManager;
     EvFind "How do I reset my password?";
     EvRun sample_state.(self).(chain) "How do I reset my password?"
       [PyStr "Use the self-service portal"]]
  /\ count_runs
       (snd (process_user_input "How do I reset my password?" sample_state))
         .(world).(calls)
     = 1%nat
  /\ fst (process_user_input "How do I reset my password?" sample_state)
     = Ret "echo: How do I reset my password?"
  /\ (snd (process_user_input "How do I reset my password?" sample_state))
       .(self).(chat_history)
     = [{| role := "user"; text := "How do I reset my password?" |};
        {| role := "bot"; text := "echo: How do I reset my password?" |}].
Proof.
  destruct (process_user_input_runs_chain_once "How do I reset my password?"
              sample_state
              (snd (generate_best_practice "How do I reset my password?"
                      (with_turn "user" "How do I reset my password?"
                         sample_state)))
              [PyStr "Use the self-service portal"] eq_refl)
    as (Hcalls & Hcount & Hret).
  split; [exact Hcalls|]. split; [exact Hcount|].
  exact (Hret "echo: How do I reset my password?" 3%nat eq_refl).
Defined.

(** C4, the claim as stated fails: when the search is interrupted from the
    keyboard the call ends there, and the chain is not run at all. *)
Lemma process_user_input_interrupted_never_runs_chain :
  fst (DataManager_find sample_state.(self).(data_manager) "ctrl-c"
         sample_state.(world).(ext))
  = Raise KeyboardInterrupt
  /\ fst (process_user_input "ctrl-c" sample_state) = Raise KeyboardInterrupt
  /\ (snd (process_user_input "ctrl-c" sample_state)).(world).(calls)
     = sample_state.(world).(calls) ++ [EvFind "ctrl-c"]
  /\ count_runs (snd (process_user_input "ctrl-c" sample_state)).(world).(calls)
     = count_runs sample_state.(world).(calls)
  /\ count_runs (snd (process_user_input "ctrl-c" sample_state)).(world).(calls)
     <> S (count_runs sample_state.(world).(calls)).
Proof. repeat split. discriminate. Qed.

(** C5 at a chain that is overloaded. *)
Lemma process_user_input_propagates_completion_error_witness :
  process_user_input "overload" sample_state
  = (Raise (PyException "RateLimitError" "try again later"),
     with_world
       (log_call (EvRun sample_state.(self).(chain) "overload" []) 3%nat
          (snd (generate_best_practice "overload"
                  (with_turn "user" "overload" sample_state))).(world))
       (snd (generate_best_practice "overload"
               (with_turn "user" "overload" sample_state))))
  /\ count_runs (snd (process_user_input "overload" sample_state)).(world).(calls)
     = 1%nat.
Proof.
  apply (process_user_input_propagates_completion_error "overload" sample_state
           (snd (generate_best_practice "overload"
                   (with_turn "user" "overload" sample_state)))
           [] (PyException "RateLimitError" "try again later") 3%nat);
    reflexivity.
Defined.

(** C6 at an empty environment. *)
Lemma init_without_api_key_exits_witness :
  __init__ ∅ sample_world
  = (Raise (SystemExit 1), write_stderr "API key not found." sample_world)
  /\ exit_status (fst (__init__ ∅ sample_world)) <> 0
  /\ (snd (__init__ ∅ sample_world)).(stderr) = ["API key not found."]
  /\ (snd (__init__ ∅ sample_world)).(calls) = []
  /\ (snd (__init__ ∅ sample_world)).(ext) = 0%nat.
Proof.
  apply (init_without_api_key_exits ∅ sample_world). reflexivity.
Defined.

(** C8 at a chain that is overloaded: the user turn stays. *)
Lemma process_user_input_keeps_user_turn_on_failure_witness :
  (snd (process_user_input "overload" sample_state)).(self).(chat_history)
  = [{| role := "user"; text := "overload" |}]
  /\ length (snd (process_user_input "overload" sample_state)).(self).(chat_history)
     = 1%nat.
Proof.
  apply (process_user_input_keeps_user_turn_on_failure "overload" sample_state
           (snd (generate_best_practice "overload"
                   (with_turn "user" "overload" sample_state)))
           [] (PyException "RateLimitError" "try again later") 3%nat);
    reflexivity.
Defined.

(** C10 at a result whose second record has no answer: the first record's
    answer is dropped with it. *)
Lemma generate_best_practice_discards_all_on_malformed_witness :
  exists e,
    answers_of
      (PyList [record_dict {| question := "q1"; answer := "a1" |};
               PyDict [("question", PyStr "q2")]])
    = Raise e
    /\ generate_best_practice "broken" sample_state
       = (Ret [],
          with_world
            (write_stdout (error_line e)
               (log_call (EvFind "broken") 2%nat sample_state.(world)))
            sample_state).
Proof.
  apply (generate_best_practice_discards_all_on_malformed "broken" sample_state
           (PyList [record_dict {| question := "q1"; answer := "a1" |};
                    PyDict [("question", PyStr "q2")]])
           2%nat);
    reflexivity.
Defined.

(** ** Further properties of the three methods *)

Section Beyond.
Context `{Collab : Collaborators}.

(** The engine [__init__] returns around the data manager [dm]. *)
Lemma init_eq_with_key (environ : gmap string string) (w : World) (key : string) :
  environ !! "OPENAI_API_KEY" = Some key ->
  __init__ environ w =
  match QADataManager_new w.(ext) with
  | (Raise e, x) => (Raise e, log_call EvNewDataManager x (store_api_key key w))
  | (Ret dm, x) =>
      let w1 := log_call EvNewDataManager x (store_api_key key w) in
      let llm := {| temperature := 0; model := "gpt-3.5-turbo" |} in
      let system_prompt :=
        {| input_variables := ["message"; "best_practice"];
           template := imported_system_prompt |} in
      let chain := {| llm := llm; prompt := system_prompt |} in
      match ChatOpenAI_init environ llm x with
      | (Raise e, x1) => (Raise e, with_ext x1 w1)
      | (Ret _, x1) =>
          match PromptTemplate_init system_prompt x1 with
          | (Raise e, x2) => (Raise e, with_ext x2 w1)
          | (Ret _, x2) =>
              match LLMChain_init chain x2 with
              | (Raise e, x3) => (Raise e, with_ext x3 w1)
              | (Ret _, x3) =>
                  (Ret {| chat_history := ChatHistory_new;
                          data_manager := dm;
                          system_template := imported_system_prompt;
                          system_prompt := system_prompt;
                          chain := chain |},
                   with_ext x3 w1)
              end
          end
      end
  end.
Proof.
  intros Hkey. unfold __init__, bind, try_except, lift, environ_getitem.
  rewrite Hkey. simpl. unfold QADataManager, extern. simpl.
  destruct (QADataManager_new _) as [[dm|e] x]; [|reflexivity].
  unfold new_ChatOpenAI, new_PromptTemplate, new_LLMChain, construct. simpl.
  destruct (ChatOpenAI_init _ _ _) as [[[]|e] x1]; [|reflexivity]. simpl.
  destruct (PromptTemplate_init _ _) as [[[]|e] x2]; [|reflexivity]. simpl.
  destruct (LLMChain_init _ _) as [[[]|e] x3]; reflexivity.
Qed.

(** The history a call leaves, by its outcome. *)
Lemma process_user_input_history (m : string) (st : State) :
  (snd (process_user_input m st)).(self).(chat_history)
  = match fst (process_user_input m st) with
    | Ret response =>
        st.(self).(chat_history)
          ++ [{| role := "user"; text := m |};
              {| role := "bot"; text := response |}]
    | Raise _ => st.(self).(chat_history) ++ [{| role := "user"; text := m |}]
    end.
Proof.
  destruct (generate_best_practice m (with_turn "user" m st))
    as [[best|e] st2] eqn:Hg.
  - rewrite (process_user_input_after_retrieval _ _ _ _ Hg).
    apply retrieval_in_call in Hg as (_ & Hhist & _).
    destruct (LLMChain_run _ _ _ _) as [[r|e] x]; simpl; [|exact Hhist].
    unfold add_message. by rewrite Hhist, <- app_assoc.
  - rewrite process_user_input_eq, Hg. simpl.
    by apply retrieval_in_call in Hg as (_ & Hhist & _).
Qed.

(** What no call touches: every attribute of [self] but the history, the
    error stream and the stored key. *)
Lemma generate_best_practice_streams (user_message : string) (st : State) :
  (snd (generate_best_practice user_message st)).(world).(stderr)
  = st.(world).(stderr)
  /\ (snd (generate_best_practice user_message st)).(world).(openai_api_key)
     = st.(world).(openai_api_key).
Proof.
  rewrite generate_best_practice_eq.
  destruct (DataManager_find _ _ _) as [[v|e] x]; simpl.
  - destruct (answers_of v) as [best|e]; [done|].
    destruct (isinstance_Exception e); done.
  - destruct (isinstance_Exception e); done.
Qed.

Lemma answers_of_dicts (responses answers : list pyval) :
  Forall2 (fun response a =>
             exists d, response = PyDict d /\ dict_get d "answer" = Some a)
    responses answers ->
  answers_of (PyList responses) = Ret answers.
Proof.
  unfold answers_of. simpl.
  induction 1 as [|r a rs az (d & -> & Hd) _ IH]; simpl; [done|].
  by rewrite Hd, IH.
Qed.

(** X1. With the key in the environment, a data manager that can be
    built and langchain constructors that accept what they are given, the
    constructor returns an engine with an empty history, that data
    manager, the imported template, and a chain at temperature 0 on
    gpt-3.5-turbo over the variables message and best_practice; the key
    is stored in [openai.api_key]. *)
Theorem init_with_api_key
    (environ : gmap string string) (w : World) (key : string)
    (dm : DataManager) (x x1 x2 x3 : ExtState) :
  environ !! "OPENAI_API_KEY" = Some key ->
  QADataManager_new w.(ext) = (Ret dm, x) ->
  ChatOpenAI_init environ {| temperature := 0; model := "gpt-3.5-turbo" |} x
  = (Ret tt, x1) ->
  PromptTemplate_init
    {| input_variables := ["message"; "best_practice"];
       template := imported_system_prompt |} x1
  = (Ret tt, x2) ->
  LLMChain_init
    {| llm := {| temperature := 0; model := "gpt-3.5-turbo" |};
       prompt :=
         {| input_variables := ["message"; "best_practice"];
            template := imported_system_prompt |} |} x2
  = (Ret tt, x3) ->
  exists e w',
    __init__ environ w = (Ret e, w')
    /\ e.(chat_history) = []
    /\ e.(data_manager) = dm
    /\ e.(system_template) = imported_system_prompt
    /\ e.(system_prompt)
       = {| input_variables := ["message"; "best_practice"];
            template := imported_system_prompt |}
    /\ e.(chain)
       = {| llm := {| temperature := 0; model := "gpt-3.5-turbo" |};
            prompt := e.(system_prompt) |}
    /\ w'.(openai_api_key) = Some key
    /\ w'.(ext) = x3.
Proof.
  intros Hkey Hdm Hllm Hprompt Hchain.
  rewrite (init_eq_with_key _ _ _ Hkey), Hdm. cbv zeta.
  rewrite Hllm, Hprompt, Hchain.
  eexists _, _. split; [reflexivity|]. simpl. repeat split.
Qed.

(** X2. The [except KeyError] clause guards the lookup of the key only:
    when the key is there and building the data manager raises, be it a
    [KeyError], that error leaves the constructor as it is; the key is
    already stored and no diagnostic is written. *)
Theorem init_data_manager_error_propagates
    (environ : gmap string string) (w : World) (key : string)
    (e : exn) (x : ExtState) :
  environ !! "OPENAI_API_KEY" = Some key ->
  QADataManager_new w.(ext) = (Raise e, x) ->
  fst (__init__ environ w) = Raise e
  /\ (snd (__init__ environ w)).(stderr) = w.(stderr)
  /\ (snd (__init__ environ w)).(openai_api_key) = Some key
  /\ (snd (__init__ environ w)).(calls) = w.(calls) ++ [EvNewDataManager].
Proof.
  intros Hkey Hdm. rewrite (init_eq_with_key _ _ _ Hkey), Hdm.
  simpl. repeat split.
Qed.

(** X3. The diagnostic is written exactly when the key is missing: the
    constructor changes the error stream if and only if the lookup of
    [OPENAI_API_KEY] fails. *)
Theorem init_writes_stderr_iff_no_key (environ : gmap string string) (w : World) :
  (snd (__init__ environ w)).(stderr) <> w.(stderr)
  <-> environ !! "OPENAI_API_KEY" = None.
Proof.
  destruct (environ !! "OPENAI_API_KEY") as [key|] eqn:Hkey.
  - rewrite (init_eq_with_key _ _ _ Hkey).
    destruct (QADataManager_new _) as [[dm|e] x]; cbv zeta;
      [|simpl; split; congruence].
    destruct (ChatOpenAI_init _ _ _) as [[[]|e] x1];
      [|simpl; split; congruence].
    destruct (PromptTemplate_init _ _) as [[[]|e] x2];
      [|simpl; split; congruence].
    destruct (LLMChain_init _ _) as [[[]|e] x3]; simpl; split; congruence.
  - split; [done|]. intros _.
    unfold __init__, bind, try_except, lift, environ_getitem.
    rewrite Hkey. simpl. intros H.
    apply (f_equal length) in H. rewrite length_app in H. simpl in H. lia.
Qed.

(** X4. What leaves [generate_best_practice] as a raise is never an
    instance of [Exception]: it is what the retriever itself raised, from
    outside that class, and nothing was printed for it. *)
Theorem generate_best_practice_raise_is_not_Exception
    (m : string) (st st' : State) (e : exn) :
  generate_best_practice m st = (Raise e, st') ->
  isinstance_Exception e = false
  /\ fst (DataManager_find st.(self).(data_manager) m st.(world).(ext)) = Raise e
  /\ st'.(world).(stdout) = st.(world).(stdout).
Proof.
  rewrite generate_best_practice_eq.
  destruct (DataManager_find _ _ _) as [[v|e'] x]; simpl.
  - destruct (answers_of v) as [best|e'] eqn:Hv; [discriminate|].
    by rewrite (answers_of_raises_Exception v e' Hv).
  - destruct (isinstance_Exception e') eqn:He; [discriminate|].
    by intros [= -> <-].
Qed.

(** X5. Whatever its outcome, [generate_best_practice m] makes exactly one
    outgoing call, the search for [m]; it never runs the chain, never
    writes to the error stream and never touches the stored key. *)
Theorem generate_best_practice_one_search_only (m : string) (st : State) :
  (snd (generate_best_practice m st)).(world).(calls)
  = st.(world).(calls) ++ [EvFind m]
  /\ count_runs (snd (generate_best_practice m st)).(world).(calls)
     = count_runs st.(world).(calls)
  /\ (snd (generate_best_practice m st)).(world).(stderr) = st.(world).(stderr)
  /\ (snd (generate_best_practice m st)).(world).(openai_api_key)
     = st.(world).(openai_api_key).
Proof.
  split; [apply generate_best_practice_calls|]. split.
  - by rewrite generate_best_practice_calls, count_runs_find.
  - apply generate_best_practice_streams.
Qed.

(** X6. [generate_best_practice] prints at most one line, and only when it
    recovers: either the console is as before, or the result is the empty
    list and the one new line reports an instance of [Exception]. *)
Theorem generate_best_practice_prints_only_on_recovery (m : string) (st : State) :
  (snd (generate_best_practice m st)).(world).(stdout) = st.(world).(stdout)
  \/ (fst (generate_best_practice m st) = Ret []
      /\ exists e,
           isinstance_Exception e = true
           /\ (snd (generate_best_practice m st)).(world).(stdout)
              = st.(world).(stdout) ++ [error_line e]).
Proof.
  rewrite generate_best_practice_eq.
  destruct (DataManager_find _ _ _) as [[v|e] x]; simpl.
  - destruct (answers_of v) as [best|e]; [by left|].
    destruct (isinstance_Exception e) eqn:He; [|by left].
    right. split; [done|]. by exists e.
  - destruct (isinstance_Exception e) eqn:He; [|by left].
    right. split; [done|]. by exists e.
Qed.

(** X7. Answers are passed through as they are: when the retriever returns
    a list of dicts that each hold ["answer"], whatever else they hold and
    whatever the type of the answer, the result is the list of those
    values, one per record and in order, and nothing is printed. *)
Theorem generate_best_practice_passes_answers_through
    (m : string) (st : State) (responses answers : list pyval) (x : ExtState) :
  DataManager_find st.(self).(data_manager) m st.(world).(ext)
  = (Ret (PyList responses), x) ->
  Forall2 (fun response a =>
             exists d, response = PyDict d /\ dict_get d "answer" = Some a)
    responses answers ->
  generate_best_practice m st
  = (Ret answers, with_world (log_call (EvFind m) x st.(world)) st)
  /\ length answers = length responses.
Proof.
  intros Hfind Hall. split.
  - rewrite generate_best_practice_eq, Hfind. cbv zeta.
    by rewrite (answers_of_dicts _ _ Hall).
  - symmetry. by eapply Forall2_length.
Qed.

(** X8. From the returned value alone a failed retrieval cannot be told
    from an empty one: a search that finds nothing and a search that
    raises an instance of [Exception] both yield the empty list. *)
Theorem failed_and_empty_retrieval_return_alike
    (m1 m2 : string) (st1 st2 : State) (e : exn) (x1 x2 : ExtState) :
  DataManager_find st1.(self).(data_manager) m1 st1.(world).(ext)
  = (Ret (PyList []), x1) ->
  DataManager_find st2.(self).(data_manager) m2 st2.(world).(ext)
  = (Raise e, x2) ->
  isinstance_Exception e = true ->
  fst (generate_best_practice m1 st1) = fst (generate_best_practice m2 st2)
  /\ (snd (generate_best_practice m1 st1)).(world).(stdout)
     = st1.(world).(stdout).
Proof.
  intros H1 H2 He. rewrite !generate_best_practice_eq, H1, H2. simpl.
  by rewrite He.
Qed.

(** X9. A record that comes bare, a dict that is not wrapped in a list, is
    lost: iterating the dict yields its keys, subscripting a key with
    ["answer"] is a [TypeError], and the result is the empty list. *)
Theorem generate_best_practice_discards_bare_record
    (m : string) (st : State) (k : string) (v : pyval)
    (d : list (string * pyval)) (x : ExtState) :
  DataManager_find st.(self).(data_manager) m st.(world).(ext)
  = (Ret (PyDict ((k, v) :: d)), x) ->
  exists msg,
    generate_best_practice m st
    = (Ret [],
       with_world
         (write_stdout (error_line (TypeError msg))
            (log_call (EvFind m) x st.(world))) st).
Proof.
  intros Hfind. rewrite generate_best_practice_eq, Hfind.
  eexists. reflexivity.
Qed.

(** The attributes a call leaves alone. *)
Lemma process_user_input_attrs (m : string) (st : State) :
  (snd (process_user_input m st)).(self).(data_manager) = st.(self).(data_manager)
  /\ (snd (process_user_input m st)).(self).(system_template)
     = st.(self).(system_template)
  /\ (snd (process_user_input m st)).(self).(system_prompt)
     = st.(self).(system_prompt)
  /\ (snd (process_user_input m st)).(self).(chain) = st.(self).(chain).
Proof.
  rewrite process_user_input_eq.
  destruct (generate_best_practice _ _) as [[best|e] st2] eqn:Hg;
    apply generate_best_practice_frame in Hg as (Hself & _ & _).
  - destruct (LLMChain_run _ _ _ _) as [[r|e] x]; simpl; by rewrite Hself.
  - simpl. by rewrite Hself.
Qed.

(** A constructor that returns found the key and built the data manager. *)
Lemma init_returns (environ : gmap string string) (w w' : World) (e : ChatEngine) :
  __init__ environ w = (Ret e, w') ->
  exists dm,
    e = {| chat_history := [];
           data_manager := dm;
           system_template := imported_system_prompt;
           system_prompt :=
             {| input_variables := ["message"; "best_practice"];
                template := imported_system_prompt |};
           chain :=
             {| llm := {| temperature := 0; model := "gpt-3.5-turbo" |};
                prompt :=
                  {| input_variables := ["message"; "best_practice"];
                     template := imported_system_prompt |} |} |}.
Proof.
  destruct (environ !! "OPENAI_API_KEY") as [key|] eqn:Hkey.
  - rewrite (init_eq_with_key _ _ _ Hkey).
    destruct (QADataManager_new _) as [[dm|ex] x]; [|discriminate]. cbv zeta.
    destruct (ChatOpenAI_init _ _ _) as [[[]|ex] x1]; [|discriminate].
    destruct (PromptTemplate_init _ _) as [[[]|ex] x2]; [|discriminate].
    destruct (LLMChain_init _ _) as [[[]|ex] x3]; [|discriminate].
    intros [= <- _]. by exists dm.
  - unfold __init__, bind, try_except, lift, environ_getitem.
    rewrite Hkey. discriminate.
Qed.

Lemma reachable_exchanges (st : State) :
  reachable st -> exchanges st.(self).(chat_history).
Proof.
  induction 1 as [environ w e w' Hinit | st message _ IH | st w _ IH].
  - apply init_returns in Hinit as [dm ->]. constructor.
  - rewrite process_user_input_history.
    destruct (fst (process_user_input message st)); by constructor.
  - exact IH.
Qed.

Lemma exchanges_roles (h : list Turn) :
  exchanges h -> Forall (fun t => t.(role) = "user" \/ t.(role) = "bot") h.
Proof.
  induction 1 as [|h m _ IH|h m r _ IH]; [constructor|..];
    apply Forall_app; (split; [exact IH|]).
  - constructor; [by left | constructor].
  - constructor; [by left|]. constructor; [by right | constructor].
Qed.

Lemma exchanges_bot_follows_user (h : list Turn) :
  exchanges h ->
  forall i t,
    h !! i = Some t -> t.(role) = "bot" ->
    exists j u, i = S j /\ h !! j = Some u /\ u.(role) = "user".
Proof.
  induction 1 as [|h m _ IH|h m r _ IH]; intros i t Hi Hbot.
  - by rewrite lookup_nil in Hi.
  - apply lookup_app_Some in Hi as [Hi | [Hge Hi]].
    + destruct (IH i t Hi Hbot) as (j & u & -> & Hj & Hu).
      exists j, u. split; [done|]. split; [|done].
      by apply lookup_app_l_Some.
    + destruct (i - length h)%nat as [|[|n]]; simpl in Hi; [|done..].
      injection Hi as <-. discriminate.
  - apply lookup_app_Some in Hi as [Hi | [Hge Hi]].
    + destruct (IH i t Hi Hbot) as (j & u & -> & Hj & Hu).
      exists j, u. split; [done|]. split; [|done].
      by apply lookup_app_l_Some.
    + destruct (i - length h)%nat as [|[|n]] eqn:Hd; simpl in Hi; [| |done].
      * injection Hi as <-. discriminate.
      * exists (length h), {| role := "user"; text := m |}.
        split; [lia|]. split; [|done].
        rewrite lookup_app_r by lia. by rewrite Nat.sub_diag.
Qed.

(** X10. Whatever its outcome, [process_user_input] re-binds no attribute
    of the engine: after the call the data manager, both templates and
    the chain are the objects they were, and only the history has
    changed. *)
Theorem process_user_input_frame (m : string) (st : State) :
  (snd (process_user_input m st)).(self)
  = {| chat_history := (snd (process_user_input m st)).(self).(chat_history);
       data_manager := st.(self).(data_manager);
       system_template := st.(self).(system_template);
       system_prompt := st.(self).(system_prompt);
       chain := st.(self).(chain) |}.
Proof.
  destruct (process_user_input_attrs m st) as (H1 & H2 & H3 & H4).
  destruct (snd (process_user_input m st)).(self) as [h dm t p c].
  simpl in *. by rewrite H1, H2, H3, H4.
Qed.

(** X11. The history is append-only under [process_user_input], whatever
    the outcome: the old history is a prefix of the new one, the turn
    right after it is the user's message, and the history grows by two
    turns when the call returns and by one when it raises. *)
Theorem process_user_input_appends_only (m : string) (st : State) :
  st.(self).(chat_history)
    `prefix_of` (snd (process_user_input m st)).(self).(chat_history)
  /\ (snd (process_user_input m st)).(self).(chat_history)
       !! length st.(self).(chat_history)
     = Some {| role := "user"; text := m |}
  /\ length (snd (process_user_input m st)).(self).(chat_history)
     = (length st.(self).(chat_history)
        + match fst (process_user_input m st) with
          | Ret _ => 2
          | Raise _ => 1
          end)%nat.
Proof.
  rewrite process_user_input_history. unfold ChatHistory in *.
  destruct (fst (process_user_input m st)) as [r|e].
  - split; [by apply prefix_app_r|]. split.
    + rewrite lookup_app_r by lia. by rewrite Nat.sub_diag.
    + by rewrite length_app.
  - split; [by apply prefix_app_r|]. split.
    + rewrite lookup_app_r by lia. by rewrite Nat.sub_diag.
    + by rewrite length_app.
Qed.

(** X12. An instance of [Exception] that leaves [process_user_input] was
    raised by the chain: the retrieval step had returned, and [run] on
    its result raised that very error. *)
Theorem process_user_input_Exception_is_from_chain
    (m : string) (st : State) (e : exn) :
  fst (process_user_input m st) = Raise e ->
  isinstance_Exception e = true ->
  exists best_practice st2,
    generate_best_practice m (with_turn "user" m st) = (Ret best_practice, st2)
    /\ fst (LLMChain_run st.(self).(chain) m best_practice st2.(world).(ext))
       = Raise e.
Proof.
  intros Hraise He.
  destruct (generate_best_practice m (with_turn "user" m st))
    as [[best|e'] st2] eqn:Hg.
  - rewrite (process_user_input_after_retrieval _ _ _ _ Hg) in Hraise.
    exists best, st2. split; [reflexivity|].
    destruct (LLMChain_run _ _ _ _) as [[r|e''] x]; simpl in *; congruence.
  - rewrite process_user_input_eq, Hg in Hraise. simpl in Hraise.
    injection Hraise as ->.
    rewrite generate_best_practice_eq in Hg.
    destruct (DataManager_find _ _ _) as [[v|e''] x]; simpl in Hg.
    + destruct (answers_of v) as [b|e''] eqn:Hv; [discriminate|].
      rewrite (answers_of_raises_Exception v e'' Hv) in Hg. discriminate.
    + destruct (isinstance_Exception e'') eqn:He''; [discriminate|].
      congruence.
Qed.

(** X13. When the retriever raises from outside [Exception] (an interrupt
    from the keyboard, an exit), [process_user_input] raises the same, the
    chain is never run, and the user's turn stays in the history with no
    answer. *)
Theorem process_user_input_retrieval_interrupted
    (m : string) (st : State) (e : exn) (x : ExtState) :
  DataManager_find st.(self).(data_manager) m st.(world).(ext) = (Raise e, x) ->
  isinstance_Exception e = false ->
  process_user_input m st
  = (Raise e,
     with_world (log_call (EvFind m) x st.(world)) (with_turn "user" m st))
  /\ count_runs (snd (process_user_input m st)).(world).(calls)
     = count_runs st.(world).(calls)
  /\ (snd (process_user_input m st)).(self).(chat_history)
     = st.(self).(chat_history) ++ [{| role := "user"; text := m |}].
Proof.
  intros Hfind He.
  assert (Hcall : process_user_input m st
                  = (Raise e,
                     with_world (log_call (EvFind m) x st.(world))
                       (with_turn "user" m st))).
  { rewrite process_user_input_eq, generate_best_practice_eq. simpl.
    rewrite Hfind. simpl. by rewrite He. }
  rewrite Hcall. split; [reflexivity|]. split; [|reflexivity].
  simpl. apply count_runs_find.
Qed.

(** X14. In every reachable state the history is made of exchanges: each
    turn is a user's or a bot's, and each bot turn comes right after a
    user turn (so the history never starts with a bot turn and never
    holds two bot turns in a row). *)
Theorem reachable_history_is_exchanges (st : State) :
  reachable st ->
  Forall (fun t => t.(role) = "user" \/ t.(role) = "bot") st.(self).(chat_history)
  /\ forall i t,
       st.(self).(chat_history) !! i = Some t -> t.(role) = "bot" ->
       exists j u,
         i = S j /\ st.(self).(chat_history) !! j = Some u /\ u.(role) = "user".
Proof.
  intros Hreach. apply reachable_exchanges in Hreach. split.
  - by apply exchanges_roles.
  - by apply exchanges_bot_follows_user.
Qed.

(** X15. The configuration the constructor chose holds in every reachable
    state: the chain runs gpt-3.5-turbo at temperature 0 over the same
    prompt object as [self.system_prompt], whose template is
    [self.system_template], the imported text, with the variables message
    and best_practice. *)
Theorem reachable_configuration (st : State) :
  reachable st ->
  st.(self).(chain).(llm) = {| temperature := 0; model := "gpt-3.5-turbo" |}
  /\ st.(self).(chain).(prompt) = st.(self).(system_prompt)
  /\ st.(self).(system_prompt).(template) = st.(self).(system_template)
  /\ st.(self).(system_template) = imported_system_prompt
  /\ st.(self).(system_prompt).(input_variables) = ["message"; "best_practice"].
Proof.
  induction 1 as [environ w e w' Hinit | st message _ IH | st w _ IH].
  - apply init_returns in Hinit as [dm ->]. simpl. repeat split.
  - destruct (process_user_input_attrs message st) as (_ & -> & -> & ->).
    exact IH.
  - exact IH.
Qed.

(** X16. Two calls that return, one after the other, leave the four turns
    of their two exchanges, in order. *)
Theorem two_calls_append_two_exchanges
    (m1 m2 r1 r2 : string) (st st1 st2 : State) :
  process_user_input m1 st = (Ret r1, st1) ->
  process_user_input m2 st1 = (Ret r2, st2) ->
  st2.(self).(chat_history)
  = st.(self).(chat_history)
      ++ [{| role := "user"; text := m1 |}; {| role := "bot"; text := r1 |};
          {| role := "user"; text := m2 |}; {| role := "bot"; text := r2 |}].
Proof.
  intros H1 H2.
  pose proof (process_user_input_history m1 st) as E1.
  pose proof (process_user_input_history m2 st1) as E2.
  rewrite H1 in E1. rewrite H2 in E2. simpl in E1, E2.
  rewrite E2, E1. by rewrite <- app_assoc.
Qed.

(** X17. A failed call leaves its question behind: when a call raises and
    the next one returns, the history holds the first message with no
    answer, directly followed by the second exchange. *)
Theorem failed_call_leaves_unanswered_turn
    (m1 m2 r2 : string) (e : exn) (st st1 st2 : State) :
  process_user_input m1 st = (Raise e, st1) ->
  process_user_input m2 st1 = (Ret r2, st2) ->
  st2.(self).(chat_history)
  = st.(self).(chat_history)
      ++ [{| role := "user"; text := m1 |};
          {| role := "user"; text := m2 |}; {| role := "bot"; text := r2 |}].
Proof.
  intros H1 H2.
  pose proof (process_user_input_history m1 st) as E1.
  pose proof (process_user_input_history m2 st1) as E2.
  rewrite H1 in E1. rewrite H2 in E2. simpl in E1, E2.
  rewrite E2, E1. by rewrite <- app_assoc.
Qed.

(** X18. The history has no part in the answer: two engines with the same
    data manager and chain, in the same world, give the same outcome for
    the same message and leave the same world, whatever their histories
    hold. *)
Theorem response_ignores_history (m : string) (st1 st2 : State) :
  st1.(self).(data_manager) = st2.(self).(data_manager) ->
  st1.(self).(chain) = st2.(self).(chain) ->
  st1.(world) = st2.(world) ->
  fst (process_user_input m st1) = fst (process_user_input m st2)
  /\ (snd (process_user_input m st1)).(world)
     = (snd (process_user_input m st2)).(world).
Proof.
  intros Hdm Hchain Hworld.
  rewrite !process_user_input_eq, !generate_best_practice_eq. simpl.
  rewrite Hdm, Hworld.
  destruct (DataManager_find _ _ _) as [[v|e] x]; simpl.
  - destruct (answers_of v) as [best|e]; simpl.
    + rewrite Hchain. destruct (LLMChain_run _ _ _ _) as [[r|e] x']; done.
    + destruct (isinstance_Exception e); simpl; [|done].
      rewrite Hchain. destruct (LLMChain_run _ _ _ _) as [[r|e'] x']; done.
  - destruct (isinstance_Exception e); simpl; [|done].
    rewrite Hchain. destruct (LLMChain_run _ _ _ _) as [[r|e'] x']; done.
Qed.

End Beyond.

(** ** The further properties on the sample collaborators *)

(** X1 at the sample environment. *)
Lemma init_with_api_key_witness :
  exists e w',
    __init__ sample_environ sample_world = (Ret e, w')
    /\ e.(chat_history) = []
    /\ e.(data_manager) = tt
    /\ e.(system_template) = "Answer {message} using {best_practice}"
    /\ e.(system_prompt)
       = {| input_variables := ["message"; "best_practice"];
            template := "Answer {message} using {best_practice}" |}
    /\ e.(chain)
       = {| llm := {| temperature := 0; model := "gpt-3.5-turbo" |};
            prompt := e.(system_prompt) |}
    /\ w'.(openai_api_key) = Some "sk-test"
    /\ w'.(ext) = 1%nat.
Proof.
  apply (init_with_api_key sample_environ sample_world "sk-test" tt
           1%nat 1%nat 1%nat 1%nat).
  - vm_compute. reflexivity.
  - reflexivity.
  - vm_compute. reflexivity.
  - reflexivity.
  - reflexivity.
Defined.

(** X2 at a data manager that misses its own configuration key: the
    [KeyError] passes the constructor's [except KeyError]. *)
Lemma init_data_manager_error_propagates_witness :
  fst (@__init__ odd sample_environ odd_world) = Raise (KeyError "DB_URL")
  /\ (snd (@__init__ odd sample_environ odd_world)).(stderr) = []
  /\ (snd (@__init__ odd sample_environ odd_world)).(openai_api_key)
     = Some "sk-test"
  /\ (snd (@__init__ odd sample_environ odd_world)).(calls) = [EvNewDataManager].
Proof.
  apply (@init_data_manager_error_propagates odd sample_environ odd_world
           "sk-test" (KeyError "DB_URL") 1%nat).
  - vm_compute. reflexivity.
  - reflexivity.
Defined.

(** X4 at an interrupt from the keyboard. *)
Lemma generate_best_practice_raise_is_not_Exception_witness :
  isinstance_Exception KeyboardInterrupt = false
  /\ fst (DataManager_find sample_state.(self).(data_manager) "ctrl-c"
            sample_state.(world).(ext))
     = Raise KeyboardInterrupt
  /\ (snd (generate_best_practice "ctrl-c" sample_state)).(world).(stdout) = [].
Proof.
  apply (generate_best_practice_raise_is_not_Exception "ctrl-c" sample_state
           (snd (generate_best_practice "ctrl-c" sample_state))
           KeyboardInterrupt).
  reflexivity.
Defined.

(** X7 at records with a further field and an answer that is [None]. *)
Lemma generate_best_practice_passes_answers_through_witness :
  @generate_best_practice odd "scored" odd_state
  = (Ret [PyStr "Restart it"; PyNone],
     @with_world odd (@log_call odd (EvFind "scored") 1%nat odd_world) odd_state)
  /\ length [PyStr "Restart it"; PyNone]
     = length [PyDict [("score", PyInt 7); ("answer", PyStr "Restart it");
                       ("question", PyStr "It hangs")];
               PyDict [("answer", PyNone)]].
Proof.
  apply (@generate_best_practice_passes_answers_through odd "scored" odd_state
           [PyDict [("score", PyInt 7); ("answer", PyStr "Restart it");
                    ("question", PyStr "It hangs")];
            PyDict [("answer", PyNone)]]
           [PyStr "Restart it"; PyNone] 1%nat).
  - reflexivity.
  - repeat constructor; eexists; (split; [reflexivity|reflexivity]).
Defined.

(** X8 at a question nobody asked before and at a retriever offline. *)
Lemma failed_and_empty_retrieval_return_alike_witness :
  fst (generate_best_practice "anything new" sample_state)
  = fst (generate_best_practice "offline" sample_state)
  /\ (snd (generate_best_practice "anything new" sample_state)).(world).(stdout)
     = [].
Proof.
  apply (failed_and_empty_retrieval_return_alike "anything new" "offline"
           sample_state sample_state
           (PyException "ConnectionError" "connection refused") 2%nat 2%nat);
    reflexivity.
Defined.

(** X9 at one well-formed record returned without its list. *)
Lemma generate_best_practice_discards_bare_record_witness :
  exists msg,
    @generate_best_practice odd "bare" odd_state
    = (Ret [],
       @with_world odd
         (@write_stdout odd (error_line (TypeError msg))
            (@log_call odd (EvFind "bare") 1%nat odd_world)) odd_state).
Proof.
  apply (@generate_best_practice_discards_bare_record odd "bare" odd_state
           "question" (PyStr "q") [("answer", PyStr "a")] 1%nat).
  reflexivity.
Defined.

(** X12 at a chain that is overloaded. *)
Lemma process_user_input_Exception_is_from_chain_witness :
  exists best_practice st2,
    generate_best_practice "overload" (with_turn "user" "overload" sample_state)
    = (Ret best_practice, st2)
    /\ fst (LLMChain_run sample_state.(self).(chain) "overload" best_practice
              st2.(world).(ext))
       = Raise (PyException "RateLimitError" "try again later").
Proof.
  apply (process_user_input_Exception_is_from_chain "overload" sample_state
           (PyException "RateLimitError" "try again later"));
    reflexivity.
Defined.

(** X13 at an interrupt from the keyboard during the search. *)
Lemma process_user_input_retrieval_interrupted_witness :
  process_user_input "ctrl-c" sample_state
  = (Raise KeyboardInterrupt,
     with_world (log_call (EvFind "ctrl-c") 2%nat sample_state.(world))
       (with_turn "user" "ctrl-c" sample_state))
  /\ count_runs (snd (process_user_input "ctrl-c" sample_state)).(world).(calls)
     = 0%nat
  /\ (snd (process_user_input "ctrl-c" sample_state)).(self).(chat_history)
     = [{| role := "user"; text := "ctrl-c" |}].
Proof.
  apply (process_user_input_retrieval_interrupted "ctrl-c" sample_state
           KeyboardInterrupt 2%nat);
    reflexivity.
Defined.

(** X14 after a failed call and a call that returned. *)
Lemma reachable_history_is_exchanges_witness :
  (snd (process_user_input "offline"
          (snd (process_user_input "overload" sample_state))))
    .(self).(chat_history)
  = [{| role := "user"; text := "overload" |};
     {| role := "user"; text := "offline" |};
     {| role := "bot"; text := "echo: offline" |}]
  /\ Forall (fun t => t.(role) = "user" \/ t.(role) = "bot")
       (snd (process_user_input "offline"
               (snd (process_user_input "overload" sample_state))))
         .(self).(chat_history).
Proof.
  split; [reflexivity|].
  apply (reachable_history_is_exchanges
           (snd (process_user_input "offline"
                   (snd (process_user_input "overload" sample_state))))).
  do 2 apply reach_call.
  apply (reach_init sample_environ sample_world). vm_compute. reflexivity.
Defined.

(** X15 after a call. *)
Lemma reachable_configuration_witness :
  (snd (process_user_input "offline" sample_state)).(self).(chain).(llm)
  = {| temperature := 0; model := "gpt-3.5-turbo" |}
  /\ (snd (process_user_input "offline" sample_state)).(self).(chain).(prompt)
     = (snd (process_user_input "offline" sample_state)).(self).(system_prompt)
  /\ (snd (process_user_input "offline" sample_state))
       .(self).(system_prompt).(template)
     = (snd (process_user_input "offline" sample_state)).(self).(system_template)
  /\ (snd (process_user_input "offline" sample_state)).(self).(system_template)
     = "Answer {message} using {best_practice}"
  /\ (snd (process_user_input "offline" sample_state))
       .(self).(system_prompt).(input_variables)
     = ["message"; "best_practice"].
Proof.
  apply (reachable_configuration
           (snd (process_user_input "offline" sample_state))).
  apply reach_call.
  apply (reach_init sample_environ sample_world). vm_compute. reflexivity.
Defined.

(** X16 at two questions in a row. *)
Lemma two_calls_append_two_exchanges_witness :
  (snd (process_user_input "offline"
          (snd (process_user_input "How do I reset my password?" sample_state))))
    .(self).(chat_history)
  = [{| role := "user"; text := "How do I reset my password?" |};
     {| role := "bot"; text := "echo: How do I reset my password?" |};
     {| role := "user"; text := "offline" |};
     {| role := "bot"; text := "echo: offline" |}].
Proof.
  apply (two_calls_append_two_exchanges "How do I reset my password?" "offline"
           "echo: How do I reset my password?" "echo: offline" sample_state
           (snd (process_user_input "How do I reset my password?" sample_state))
           (snd (process_user_input "offline"
                   (snd (process_user_input "How do I reset my password?"
                           sample_state)))));
    reflexivity.
Defined.

(** X17 at an overloaded chain, then a question that is answered. *)
Lemma failed_call_leaves_unanswered_turn_witness :
  (snd (process_user_input "offline"
          (snd (process_user_input "overload" sample_state))))
    .(self).(chat_history)
  = [{| role := "user"; text := "overload" |};
     {| role := "user"; text := "offline" |};
     {| role := "bot"; text := "echo: offline" |}].
Proof.
  apply (failed_call_leaves_unanswered_turn "overload" "offline" "echo: offline"
           (PyException "RateLimitError" "try again later") sample_state
           (snd (process_user_input "overload" sample_state))
           (snd (process_user_input "offline"
                   (snd (process_user_input "overload" sample_state)))));
    reflexivity.
Defined.

(** X18 at a fresh engine and at one that holds an earlier exchange. *)
Lemma response_ignores_history_witness :
  fst (process_user_input "How do I reset my password?" sample_state)
  = fst (process_user_input "How do I reset my password?"
           (with_world sample_state.(world)
              (snd (process_user_input "offline" sample_state))))
  /\ (snd (process_user_input "How do I reset my password?" sample_state)).(world)
     = (snd (process_user_input "How do I reset my password?"
               (with_world sample_state.(world)
                  (snd (process_user_input "offline" sample_state))))).(world).
Proof.
  apply (response_ignores_history "How do I reset my password?" sample_state
           (with_world sample_state.(world)
              (snd (process_user_input "offline" sample_state))));
    reflexivity.
Defined.
